(** * pygments-gui: the wx RichTextCtrl formatter

    A shallow embedding of [pygments_gui/util.py] and
    [pygments_gui/wx/richtext.py].  Python objects that the code mutates
    (the formatter, the rich-text control) are records threaded through the
    functions; a raised exception is an outcome that carries the state the
    objects were left in. *)

From stdpp Require Import gmap strings list.

Local Open Scope Z_scope.
Local Open Scope nat_scope.

(** ** Exceptions and outcomes *)

(** The exceptions that cross these modules.  [LexerError] stands for
    whatever the token source raises while it is iterated; [NameError] is
    raised by the read of a variable that is not bound. *)
Inductive exn : Type :=
| AssertionError (msg : string)
| ImportError (msg : string)
| ClassNotFound (name : string)
| AttributeError (attr : string)
| LexerError (msg : string)
| NameError (name : string).

(** The specification has one name, ConfigurationError, for the errors by
    which a configuration is rejected: the failed assertion of [set_style],
    the [ClassNotFound] of the pygments registry and the [ImportError] of
    [MissingPackage]. *)
Definition ConfigurationError (e : exn) : Prop :=
  match e with
  | AssertionError _ | ImportError _ | ClassNotFound _ => True
  | AttributeError _ | LexerError _ | NameError _ => False
  end.

(** A call on mutable state [S] either returns a value or raises; both
    carry the state as the call left it. *)
Inductive Outcome (S A : Type) : Type :=
| Return (a : A) (s : S)
| Raise (e : exn) (s : S).
Arguments Return {S A} a s.
Arguments Raise {S A} e s.

Definition final_state {S A} (o : Outcome S A) : S :=
  match o with Return _ s => s | Raise _ s => s end.

Definition returns {S A} (o : Outcome S A) : Prop :=
  match o with Return _ _ => True | Raise _ _ => False end.

Definition raises {S A} (o : Outcome S A) : Prop :=
  match o with Return _ _ => False | Raise _ _ => True end.

(** ** util.py: MissingPackage *)

Module Util.

Record MissingPackage : Type := mkMissingPackage {
  pkg : string;
  context : string
}.

(** A value a method of the sentinel can hand back. *)
Inductive result : Type :=
| Value (self : MissingPackage)
| Raised (e : exn).

(** [__getattr__(self, attr)]: [return self].  Python calls this hook for
    the names ordinary lookup does not find, that is for every name of the
    absent package's interface. *)
Definition __getattr__ (self : MissingPackage) (attr : string) : result :=
  Value self.

(** [__call__], with any arguments: raises [ImportError] whose message is
    the context, then " requires ", then the package, then
    " to be installed.". *)
Definition __call__ {Args : Type} (self : MissingPackage) (args : Args) : result :=
  Raised (ImportError (context self +:+ " requires " +:+ pkg self +:+ " to be installed.")).

(** [obj.a1.a2. ... .an]: attribute access, left to right. *)
Fixpoint getattrs (obj : MissingPackage) (attrs : list string) : result :=
  match attrs with
  | [] => Value obj
  | attr :: attrs =>
      match __getattr__ obj attr with
      | Value obj => getattrs obj attrs
      | Raised e => Raised e
      end
  end.

(** [obj.a1. ... .an] called with [args]: an attribute chain followed by
    a call. *)
Definition method_call {Args : Type} (obj : MissingPackage) (attrs : list string)
    (args : Args) : result :=
  match getattrs obj attrs with
  | Value f => __call__ f args
  | Raised e => Raised e
  end.

(** The guard at the head of [richtext.py]:
    [try: import wx.richtext / except ImportError: wx = MissingPackage(...)].
    [imported] is what the import statement produced. *)
Definition import_wx {Module : Type} (imported : option Module)
    : Module + MissingPackage :=
  match imported with
  | Some m => inl m
  | None => inr (mkMissingPackage "wxPython" "pygments-gui.wx")
  end.

(** [s] occurs inside [msg]. *)
Definition names (msg s : string) : Prop :=
  ∃ before after : string, msg = before +:+ s +:+ after.

End Util.

(** ** wx/richtext.py: the data the formatter works on *)

(** A pygments token type, by its dotted name (["Keyword"], ["Name.Function"]). *)
Abbreviation Token := string (only parsing).

(** What [style_for_token] returns: the entries of the style dictionary the
    formatter reads.  The three family hints and the flags are read for
    their truth value. *)
Record StyleSpec : Type := mkStyleSpec {
  color : option string;
  bold : bool;
  italic : bool;
  underline : bool;
  roman : bool;
  sans : bool;
  mono : bool
}.

(** A pygments style: a class object, compared by identity. *)
Record PygmentsStyle : Type := StyleClass { class_id : nat }.

Global Instance PygmentsStyle_eq_dec : EqDecision PygmentsStyle.
Proof. solve_decision. Defined.

(** A value handed to the formatter as a style: a string, a style class, or
    any other object (with its printed form and the name of its type). *)
Inductive PyVal : Type :=
| VStr (s : string)
| VStyle (t : PygmentsStyle)
| VOther (repr cls : string).

Global Instance PyVal_eq_dec : EqDecision PyVal.
Proof. solve_decision. Defined.

(** [x > y] on the naturals is decided as [y < x]. *)
Global Instance nat_gt_dec : RelDecision gt := λ x y, decide (y < x).

Inductive FontFamily := FONTFAMILY_ROMAN | FONTFAMILY_SWISS | FONTFAMILY_TELETYPE
                      | FONTFAMILY_OTHER (n : nat).
Inductive FontStyle := FONTSTYLE_ITALIC | FONTSTYLE_NORMAL.
Inductive FontWeight := FONTWEIGHT_BOLD | FONTWEIGHT_NORMAL.
Inductive Underline := TEXT_ATTR_UNDERLINE_SOLID | TEXT_ATTR_UNDERLINE_NONE.

(** [wx.richtext.RichTextAttr]: every attribute is either set or absent. *)
Record RichTextAttr : Type := mkRichTextAttr {
  AttrFontFamily : option FontFamily;
  AttrFontStyle : option FontStyle;
  AttrFontWeight : option FontWeight;
  AttrFontUnderlined : option Underline;
  AttrTextColour : option string
}.

(** [wx.richtext.RichTextAttr()] *)
Definition RichTextAttr_new : RichTextAttr := mkRichTextAttr None None None None None.

(** [font.Apply(base)]: the attributes [base] has set are copied onto [font]. *)
Definition Apply (base font : RichTextAttr) : RichTextAttr :=
  {| AttrFontFamily := from_option Some (AttrFontFamily font) (AttrFontFamily base);
     AttrFontStyle := from_option Some (AttrFontStyle font) (AttrFontStyle base);
     AttrFontWeight := from_option Some (AttrFontWeight font) (AttrFontWeight base);
     AttrFontUnderlined := from_option Some (AttrFontUnderlined font) (AttrFontUnderlined base);
     AttrTextColour := from_option Some (AttrTextColour font) (AttrTextColour base) |}.

Definition SetFontFamily (family : FontFamily) (font : RichTextAttr) : RichTextAttr :=
  {| AttrFontFamily := Some family; AttrFontStyle := AttrFontStyle font;
     AttrFontWeight := AttrFontWeight font; AttrFontUnderlined := AttrFontUnderlined font;
     AttrTextColour := AttrTextColour font |}.

Definition SetFontStyle (s : FontStyle) (font : RichTextAttr) : RichTextAttr :=
  {| AttrFontFamily := AttrFontFamily font; AttrFontStyle := Some s;
     AttrFontWeight := AttrFontWeight font; AttrFontUnderlined := AttrFontUnderlined font;
     AttrTextColour := AttrTextColour font |}.

Definition SetFontWeight (w : FontWeight) (font : RichTextAttr) : RichTextAttr :=
  {| AttrFontFamily := AttrFontFamily font; AttrFontStyle := AttrFontStyle font;
     AttrFontWeight := Some w; AttrFontUnderlined := AttrFontUnderlined font;
     AttrTextColour := AttrTextColour font |}.

Definition SetFontUnderlined (u : Underline) (font : RichTextAttr) : RichTextAttr :=
  {| AttrFontFamily := AttrFontFamily font; AttrFontStyle := AttrFontStyle font;
     AttrFontWeight := AttrFontWeight font; AttrFontUnderlined := Some u;
     AttrTextColour := AttrTextColour font |}.

Definition SetTextColour (c : string) (font : RichTextAttr) : RichTextAttr :=
  {| AttrFontFamily := AttrFontFamily font; AttrFontStyle := AttrFontStyle font;
     AttrFontWeight := AttrFontWeight font; AttrFontUnderlined := AttrFontUnderlined font;
     AttrTextColour := Some c |}.

(** [wx.richtext.RichTextRange(start, end)] *)
Record RichTextRange : Type := mkRichTextRange { Start : nat; End : nat }.

(** [s[start:end]] for [0 <= start <= end]: Python clips the slice to the
    string, as [substring] does. *)
Definition slice (s : string) (start end_ : nat) : string :=
  String.substring start (end_ - start) s.

(** The rich-text control, as far as [format] touches it.  [Styled] lists
    the [SetStyleEx] calls it received, oldest first; the two counters are
    the nesting depths wx keeps for undo suppression and for freezing. *)
Record RichTextCtrl : Type := mkRichTextCtrl {
  Id : Z;
  Value : string;
  BasicStyle : RichTextAttr;
  BackgroundColour : string;
  SuppressUndo : nat;
  Frozen : nat;
  Styled : list (RichTextRange * RichTextAttr);
  Updates : nat;
  Refreshes : nat
}.

Definition BeginSuppressUndo (w : RichTextCtrl) : RichTextCtrl :=
  mkRichTextCtrl (Id w) (Value w) (BasicStyle w) (BackgroundColour w)
    (S (SuppressUndo w)) (Frozen w) (Styled w) (Updates w) (Refreshes w).

Definition EndSuppressUndo (w : RichTextCtrl) : RichTextCtrl :=
  mkRichTextCtrl (Id w) (Value w) (BasicStyle w) (BackgroundColour w)
    (pred (SuppressUndo w)) (Frozen w) (Styled w) (Updates w) (Refreshes w).

Definition Freeze (w : RichTextCtrl) : RichTextCtrl :=
  mkRichTextCtrl (Id w) (Value w) (BasicStyle w) (BackgroundColour w)
    (SuppressUndo w) (S (Frozen w)) (Styled w) (Updates w) (Refreshes w).

Definition Thaw (w : RichTextCtrl) : RichTextCtrl :=
  mkRichTextCtrl (Id w) (Value w) (BasicStyle w) (BackgroundColour w)
    (SuppressUndo w) (pred (Frozen w)) (Styled w) (Updates w) (Refreshes w).

Definition SetBackgroundColour (c : string) (w : RichTextCtrl) : RichTextCtrl :=
  mkRichTextCtrl (Id w) (Value w) (BasicStyle w) c
    (SuppressUndo w) (Frozen w) (Styled w) (Updates w) (Refreshes w).

Definition SetStyleEx (rng : RichTextRange) (fmt : RichTextAttr) (w : RichTextCtrl)
    : RichTextCtrl :=
  mkRichTextCtrl (Id w) (Value w) (BasicStyle w) (BackgroundColour w)
    (SuppressUndo w) (Frozen w) (Styled w ++ [(rng, fmt)]) (Updates w) (Refreshes w).

Definition Update (w : RichTextCtrl) : RichTextCtrl :=
  mkRichTextCtrl (Id w) (Value w) (BasicStyle w) (BackgroundColour w)
    (SuppressUndo w) (Frozen w) (Styled w) (S (Updates w)) (Refreshes w).

Definition Refresh (w : RichTextCtrl) : RichTextCtrl :=
  mkRichTextCtrl (Id w) (Value w) (BasicStyle w) (BackgroundColour w)
    (SuppressUndo w) (Frozen w) (Styled w) (Updates w) (S (Refreshes w)).

(** A token source: a single-pass iterator that yields finitely many
    [(token, text)] pairs and then either is exhausted or raises. *)
Inductive TokenSource : Type :=
| Exhausted
| Yield (token : Token) (text : string) (rest : TokenSource)
| Fails (e : exn).

(** The source a lexer that does not fail produces from a list of pairs. *)
Fixpoint tokens (spans : list (Token * string)) : TokenSource :=
  match spans with
  | [] => Exhausted
  | (token, text) :: spans => Yield token text (tokens spans)
  end.

(** The formatter object. *)
Record Formatter : Type := mkFormatter {
  style : PyVal;
  _styles_cache : gmap Token RichTextAttr;
  _last_text_cache : gmap Z string
}.

(** The formatter together with the record of the [style_for_token] calls
    made on style classes, oldest first. *)
Record State : Type := mkState {
  self : Formatter;
  lookups : list (PygmentsStyle * Token)
}.

(** ** A small world to run the code in *)

Module Demo.

Definition default_style : PygmentsStyle := StyleClass 0.
Definition vs_style : PygmentsStyle := StyleClass 1.

(** A registry that knows two names. *)
Definition registry (name : string) : option PygmentsStyle :=
  if bool_decide (name = "default") then Some default_style
  else if bool_decide (name = "vs") then Some vs_style
  else None.

Definition background_color (t : PygmentsStyle) : string :=
  if bool_decide (t = default_style) then "#f8f8f8" else "#ffffff".

Definition plain : StyleSpec := mkStyleSpec None false false false false false false.

(** [default] shows keywords bold and blue; [vs] shows them plain blue. *)
Definition style_for_token (t : PygmentsStyle) (token : Token) : StyleSpec :=
  if bool_decide (token = "Keyword") then
    mkStyleSpec (Some "0000FF") (bool_decide (t = default_style))
      false false false false false
  else plain.

(** A control with identity 7 showing [text], styled by nobody yet. *)
Definition ctrl (text : string) : RichTextCtrl :=
  mkRichTextCtrl 7 text RichTextAttr_new "" 0 0 [] 0 0.


(** A formatter on the [default] style with empty caches. *)
Definition fresh : State := mkState (mkFormatter (VStyle default_style) ∅ ∅) [].

Definition if_x : list (Token * string) :=
  [("Keyword", "if"); ("Text", " "); ("Name", "x")].

(** A formatter on the [default] style that has formatted control 7 when it
    showed ["if x"]. *)
Definition seen_if_x : State :=
  mkState (mkFormatter (VStyle default_style) ∅ {[ 7%Z := "if x" ]}) [].

(** Two lexers, by number: lexer 0 reads a text as one span, any other
    fails. *)
Definition lexer_registry (name : string) : option nat :=
  if bool_decide (name = "text") then Some 0
  else if bool_decide (name = "broken") then Some 1
  else None.

Definition lex (code : string) (lexer : nat) : TokenSource :=
  match lexer with
  | 0 => Yield "Text" code Exhausted
  | S _ => Fails (LexerError "no rule matches")
  end.

End Demo.

(** ** wx/richtext.py: WxRichTextCtrlFormatter *)

Section WxRichTextCtrlFormatter.

(** The pygments side, outside this repository: the style registry
    ([get_all_styles] yields the names [registry] knows, and
    [get_style_by_name] resolves them), and for each style class its
    background colour and its [style_for_token]. *)
Variable registry : string → option PygmentsStyle.
Variable background_color : PygmentsStyle → string.
Variable style_for_token : PygmentsStyle → Token → StyleSpec.

(** [style in pygments.styles.get_all_styles()]: the generator yields
    strings, so only a string can be found in it. *)
Definition in_all_styles (style : PyVal) : bool :=
  match style with
  | VStr name => bool_decide (is_Some (registry name))
  | VStyle _ | VOther _ _ => false
  end.

(** [pygments.styles.get_style_by_name(name)] *)
Definition get_style_by_name (name : string) : exn + PygmentsStyle :=
  match registry name with
  | Some t => inr t
  | None => inl (ClassNotFound name)
  end.

(** [str(val)] and [type(val).__name__], for the assertion message. *)
Definition py_str (v : PyVal) : string :=
  match v with
  | VStr s => s
  | VStyle t => "<class 'pygments.style.Style'>"
  | VOther repr _ => repr
  end.

Definition py_type_name (v : PyVal) : string :=
  match v with
  | VStr _ => "str"
  | VStyle _ => "StyleMeta"
  | VOther _ cls => cls
  end.

Definition set_style_message (v : PyVal) : string :=
  "Expcted WxRichTextCtrlFormatter style to be a " +:+
  "PygmentsStyle object or the name of a pygments " +:+
  "style, but instead received " +:+ py_str v +:+ " (" +:+ py_type_name v +:+ ")".

(** [get_style(self)] *)
Definition get_style (self : Formatter) : Outcome Formatter PyVal :=
  Return (style self) self.

(** [set_style(self, style)] *)
Definition set_style (style_arg : PyVal) (self : Formatter) : Outcome Formatter unit :=
  (* get style object if given a valid name *)
  let resolved :=
    if in_all_styles style_arg then
      match style_arg with
      | VStr name => match get_style_by_name name with
                     | inr t => inr (VStyle t)
                     | inl e => inl e
                     end
      | _ => inr style_arg
      end
    else inr style_arg in
  match resolved with
  | inl e => Raise e self
  | inr style' =>
      (* make sure theme is a pygments style *)
      match style' with
      | VStyle _ =>
          (* if style has changed, clear caches *)
          let self :=
            if bool_decide (style' ≠ style self)
            then mkFormatter (style self) ∅ ∅
            else self in
          (* store style object *)
          Return tt (mkFormatter style' (_styles_cache self) (_last_text_cache self))
      | _ => Raise (AssertionError (set_style_message style')) self
      end
  end.

(** [Formatter.__init__] of pygments, the base class: it stores
    [_lookup_style(style)] in [self.style], which resolves a string
    through [get_style_by_name] and keeps any other value as it is. *)
Definition _lookup_style (style_arg : PyVal) : exn + PyVal :=
  match style_arg with
  | VStr name => match get_style_by_name name with
                 | inr t => inr (VStyle t)
                 | inl e => inl e
                 end
  | _ => inr style_arg
  end.

(** [__init__(self, style="vs", **options)].  The state of a raise is the
    object as far as it was built; the caller never receives it. *)
Definition __init__ (style_arg : PyVal) : Outcome (option Formatter) unit :=
  (* initialise base class *)
  match _lookup_style style_arg with
  | inl e => Raise e None
  | inr base_style =>
      (* make caches *)
      let self := mkFormatter base_style ∅ ∅ in
      (* set style *)
      match set_style style_arg self with
      | Return _ self => Return tt (Some self)
      | Raise e self => Raise e (Some self)
      end
  end.

(** The [(key, family)] pairs [get_rtc_style] walks, in order. *)
Definition family_keys : list (string * FontFamily) :=
  [("roman", FONTFAMILY_ROMAN); ("sans", FONTFAMILY_SWISS); ("mono", FONTFAMILY_TELETYPE)].

(** [spec.get(key, None)], for the keys of [family_keys]. *)
Definition spec_get (spec : StyleSpec) (key : string) : bool :=
  if bool_decide (key = "roman") then roman spec
  else if bool_decide (key = "sans") then sans spec
  else if bool_decide (key = "mono") then mono spec
  else false.

(** The [for key, family in ...] loop with its [break]. *)
Fixpoint apply_family (keys : list (string * FontFamily)) (spec : StyleSpec)
    (font : RichTextAttr) : RichTextAttr :=
  match keys with
  | [] => font
  | (key, family) :: keys =>
      if spec_get spec key then SetFontFamily family font
      else apply_family keys spec font
  end.

(** The body of [get_rtc_style] after the cache miss: the attribute built
    from [spec] over [base]. *)
Definition make_font (spec : StyleSpec) (base : RichTextAttr) : RichTextAttr :=
  (* make base font *)
  let font := RichTextAttr_new in
  let font := Apply base font in
  (* apply spec to font *)
  let font := apply_family family_keys spec font in
  let font := SetFontStyle (if italic spec then FONTSTYLE_ITALIC else FONTSTYLE_NORMAL) font in
  let font := SetFontWeight (if bold spec then FONTWEIGHT_BOLD else FONTWEIGHT_NORMAL) font in
  let font := SetFontUnderlined
                (if underline spec then TEXT_ATTR_UNDERLINE_SOLID
                 else TEXT_ATTR_UNDERLINE_NONE) font in
  match color spec with
  | Some c => SetTextColour ("#" +:+ c) font
  | None => font
  end.

(** [get_rtc_style(self, token, base)] *)
Definition get_rtc_style (token : Token) (base : RichTextAttr) (st : State)
    : Outcome State RichTextAttr :=
  (* if cached, return cached value *)
  match _styles_cache (self st) !! token with
  | Some font => Return font st
  | None =>
      match style (self st) with
      | VStyle t =>
          (* get style spec for token *)
          let spec := style_for_token t token in
          let font := make_font spec base in
          (* assign to styles dict *)
          Return font
            (mkState
               (mkFormatter (style (self st))
                  (<[token := font]> (_styles_cache (self st)))
                  (_last_text_cache (self st)))
               (lookups st ++ [(t, token)]))
      | _ => Raise (AttributeError "style_for_token") st
      end
  end.

(** The loop of [format], from running offset [i]. *)
Fixpoint format_loop (tokensource : TokenSource) (i : nat)
    (st : State) (outfile : RichTextCtrl) : Outcome (State * RichTextCtrl) unit :=
  match tokensource with
  | Exhausted => Return tt (st, outfile)
  | Fails e => Raise e (st, outfile)
  | Yield token text rest =>
      (* get range *)
      let rng := mkRichTextRange i (i + String.length text) in
      (* move forward to next token *)
      let i := End rng in
      (* skip if token text has not changed... *)
      let last_styled_text := default "" (_last_text_cache (self st) !! Id outfile) in
      if bool_decide (String.length last_styled_text > End rng) &&
         bool_decide (slice (Value outfile) (Start rng) (End rng)
                      = slice last_styled_text (Start rng) (End rng))
      then format_loop rest i st outfile
      else
        (* get formatting *)
        match get_rtc_style token (BasicStyle outfile) st with
        | Raise e st => Raise e (st, outfile)
        | Return fmt st =>
            (* apply format object *)
            format_loop rest i st (SetStyleEx rng fmt outfile)
        end
  end.

(** [format(self, tokensource, outfile)] *)
Definition format (tokensource : TokenSource) (st : State) (outfile : RichTextCtrl)
    : Outcome (State * RichTextCtrl) unit :=
  (* freeze while we style *)
  let outfile := BeginSuppressUndo outfile in
  let outfile := Freeze outfile in
  (* set global styling *)
  match style (self st) with
  | VStyle t =>
      let outfile := SetBackgroundColour (background_color t) outfile in
      (* set character style *)
      match format_loop tokensource 0 st outfile with
      | Raise e s => Raise e s
      | Return _ (st, outfile) =>
          (* store text *)
          let st := mkState
                      (mkFormatter (style (self st)) (_styles_cache (self st))
                         (<[Id outfile := Value outfile]> (_last_text_cache (self st))))
                      (lookups st) in
          (* thaw once done *)
          let outfile := EndSuppressUndo outfile in
          let outfile := Thaw outfile in
          let outfile := Update outfile in
          let outfile := Refresh outfile in
          Return tt (st, outfile)
      end
  | _ => Raise (AttributeError "background_color") (st, outfile)
  end.

(** ** bind *)

(** The lexer side of pygments, outside this repository: the lexer objects,
    the registry behind [get_lexer_by_name], and [pygments.lex(code, lexer)],
    the token source a lexer produces for a text. *)
Variable Lexer : Type.
Variable lexer_registry : string → option Lexer.
Variable lex : string → Lexer → TokenSource.

(** The [lexer] argument of [bind]: a string or a lexer object. *)
Inductive LexerArg : Type :=
| LexerName (name : string)
| LexerObject (lexer : Lexer).

(** [pygments.lexers.get_lexer_by_name(name)] *)
Definition get_lexer_by_name (name : string) : exn + Lexer :=
  match lexer_registry name with
  | Some lexer => inr lexer
  | None => inl (ClassNotFound name)
  end.

(** The closure [_on_text] that [bind] makes.  It closes over the lexer and
    over the name [pygments]: the statement [import pygments.lexers] inside
    [if isinstance(lexer, str)] makes [pygments] a local variable of [bind],
    and that variable is bound only when the branch ran, that is when the
    lexer was given by name. *)
Record OnText : Type := mkOnText {
  pygments_bound : bool;
  closure_lexer : Lexer
}.

(** A control together with the handlers bound to its [wx.EVT_TEXT], oldest
    first.  Of what a handler closes over, the control is the one it is
    bound to and the formatter is the one threaded through. *)
Record BoundCtrl : Type := mkBoundCtrl {
  Ctrl : RichTextCtrl;
  EVT_TEXT : list OnText
}.

(** [ctrl.Bind(wx.EVT_TEXT, _on_text, source=ctrl)] *)
Definition Bind (handler : OnText) (ctrl : BoundCtrl) : BoundCtrl :=
  mkBoundCtrl (Ctrl ctrl) (EVT_TEXT ctrl ++ [handler]).

(** The closure [_on_text] of [bind], run.  [pygments.lex] reads the
    variable [pygments] of [bind] before anything else of the call is
    evaluated. *)
Definition _on_text (closure : OnText) (st : State) (ctrl : RichTextCtrl)
    : Outcome (State * RichTextCtrl) unit :=
  if pygments_bound closure then
    (* lex content to get tokens *)
    let tokens := lex (Value ctrl) (closure_lexer closure) in
    (* format ctrl with tokens *)
    format tokens st ctrl
  else Raise (NameError "pygments") (st, ctrl).

(** [bind(self, ctrl, lexer)] *)
Definition bind (lexer : LexerArg) (st : State) (ctrl : BoundCtrl)
    : Outcome (State * BoundCtrl) unit :=
  (* if given lexer as a string, get lexer from pygments *)
  let closure :=
    match lexer with
    | LexerName name =>
        (* import pygments.lexers: binds the local [pygments] *)
        match get_lexer_by_name name with
        | inr lexer => inr (mkOnText true lexer)
        | inl e => inl e
        end
    | LexerObject lexer => inr (mkOnText false lexer)
    end in
  match closure with
  | inl e => Raise e (st, ctrl)
  | inr closure =>
      (* bind to text event *)
      let ctrl := Bind closure ctrl in
      (* format now *)
      match _on_text closure st (Ctrl ctrl) with
      | Return _ (st, w) => Return tt (st, mkBoundCtrl w (EVT_TEXT ctrl))
      | Raise e (st, w) => Raise e (st, mkBoundCtrl w (EVT_TEXT ctrl))
      end
  end.

(** ** Vocabulary of the properties *)

(** The ranges the loop computes for a list of spans, from offset [i]. *)
Fixpoint ranges (i : nat) (spans : list (Token * string)) : list RichTextRange :=
  match spans with
  | [] => []
  | (_, text) :: spans =>
      mkRichTextRange i (i + String.length text) :: ranges (i + String.length text) spans
  end.


(** The concatenation of the texts of a list of spans. *)
Fixpoint texts (spans : list (Token * string)) : string :=
  match spans with
  | [] => ""
  | (_, text) :: spans => text +:+ texts spans
  end.

(** The test of the loop, negated: the span over [rng] is restyled. *)
Definition restyled (last_styled_text value : string) (rng : RichTextRange) : bool :=
  negb (bool_decide (String.length last_styled_text > End rng) &&
        bool_decide (slice value (Start rng) (End rng)
                     = slice last_styled_text (Start rng) (End rng))).


(** The style class a value stands for: a registered name stands for its
    class, a class for itself, anything else for nothing. *)
Definition resolve (v : PyVal) : option PygmentsStyle :=
  match v with
  | VStr name => registry name
  | VStyle t => Some t
  | VOther _ _ => None
  end.

(** A value [set_style] cannot turn into a style: a name the registry
    does not know, or an object that is neither a name nor a style. *)
Definition unresolvable (v : PyVal) : Prop :=
  match v with
  | VStr name => registry name = None
  | VStyle _ => False
  | VOther _ _ => True
  end.

(** [w'] is [w] after the [SetStyleEx] calls [calls] and nothing else. *)
Definition styled_more (w : RichTextCtrl) (calls : list (RichTextRange * RichTextAttr))
    (w' : RichTextCtrl) : Prop :=
  w' = mkRichTextCtrl (Id w) (Value w) (BasicStyle w) (BackgroundColour w)
         (SuppressUndo w) (Frozen w) (Styled w ++ calls) (Updates w) (Refreshes w).

(** [w'] is [w] after a [format] call under style [t] that returned and
    made the [SetStyleEx] calls [calls]. *)
Definition formatted (t : PygmentsStyle) (w : RichTextCtrl)
    (calls : list (RichTextRange * RichTextAttr)) (w' : RichTextCtrl) : Prop :=
  w' = mkRichTextCtrl (Id w) (Value w) (BasicStyle w) (background_color t)
         (SuppressUndo w) (Frozen w) (Styled w ++ calls)
         (S (Updates w)) (S (Refreshes w)).

(** The statements below, in the words of the specification, for the
    inputs on which they are tested. *)

(** A second [format] with the same text and the same stream makes no
    [SetStyleEx] call. *)
Definition second_call_applies_nothing (spans : list (Token * string))
    (st : State) (w : RichTextCtrl) : Prop :=
  ∀ st1 w1 st2 w2,
    format (tokens spans) st w = Return tt (st1, w1) →
    format (tokens spans) st1 w1 = Return tt (st2, w2) →
    Styled w2 = Styled w1.



(** The test of the loop in the words of the specification: the cached
    text is at least as long as the end of the range and agrees with the
    control's text over the range. *)
Definition spec_skips (last_styled_text value : string) (rng : RichTextRange) : Prop :=
  String.length last_styled_text ≥ End rng ∧
  slice value (Start rng) (End rng) = slice last_styled_text (Start rng) (End rng).

(** Shape of a formatter state after a call: the style and the text cache
    are those of [st], the style cache and the lookup record only grew. *)
Definition grows (st st' : State) : Prop :=
  style (self st') = style (self st) ∧
  _last_text_cache (self st') = _last_text_cache (self st) ∧
  _styles_cache (self st) ⊆ _styles_cache (self st') ∧
  lookups st `prefix_of` lookups st'.


(** The spans of a stream with the ranges the loop computes for them. *)
Fixpoint spans_with_ranges (i : nat) (spans : list (Token * string))
    : list (RichTextRange * Token) :=
  match spans with
  | [] => []
  | (token, text) :: spans =>
      (mkRichTextRange i (i + String.length text), token)
        :: spans_with_ranges (i + String.length text) spans
  end.

(** The spans of a stream that pass the test of the loop, with their ranges
    counted from offset [i]. *)
Definition restyled_from (last_styled_text value : string) (i : nat)
    (spans : list (Token * string)) : list (RichTextRange * Token) :=
  filter (λ p, restyled last_styled_text value p.1) (spans_with_ranges i spans).



(** A use of the formatter through its methods, and the state it leaves,
    whether the method returned or raised. *)
Inductive Call : Type :=
| CallSetStyle (style_arg : PyVal)
| CallGetRtcStyle (token : Token) (base : RichTextAttr)
| CallFormat (tokensource : TokenSource) (outfile : RichTextCtrl)
| CallBind (lexer : LexerArg) (ctrl : BoundCtrl).

Definition after_call (st : State) (c : Call) : State :=
  match c with
  | CallSetStyle v => mkState (final_state (set_style v (self st))) (lookups st)
  | CallGetRtcStyle token base => final_state (get_rtc_style token base st)
  | CallFormat tokensource outfile => (final_state (format tokensource st outfile)).1
  | CallBind lexer ctrl => (final_state (bind lexer st ctrl)).1
  end.

Definition after_calls (st : State) (calls : list Call) : State :=
  fold_left after_call calls st.

(** ** Frame lemmas: what the methods leave alone *)

Lemma styled_more_nil w : styled_more w [] w.
Proof. destruct w; unfold styled_more; simpl. by rewrite app_nil_r. Qed.

Lemma styled_more_SetStyleEx w rng fmt calls w' :
  styled_more (SetStyleEx rng fmt w) calls w' → styled_more w ((rng, fmt) :: calls) w'.
Proof. unfold styled_more; simpl. intros ->. by rewrite <- app_assoc. Qed.

Lemma grows_refl st : grows st st.
Proof. by split_and!. Qed.

Lemma grows_trans st1 st2 st3 : grows st1 st2 → grows st2 st3 → grows st1 st3.
Proof.
  intros (Ha & Hb & Hc & Hd) (Ha' & Hb' & Hc' & Hd').
  split_and!; [congruence | congruence | by etrans | by etrans].
Qed.

Lemma get_rtc_style_grows token base st :
  grows st (final_state (get_rtc_style token base st)).
Proof.
  unfold get_rtc_style.
  destruct (_styles_cache (self st) !! token) eqn:Hc; simpl; [apply grows_refl |].
  destruct (style (self st)) eqn:Hs; simpl; try apply grows_refl.
  split_and!; simpl; [done | done | by apply insert_subseteq | by apply prefix_app_r].
Qed.

Lemma format_loop_frame tokensource : ∀ i st w,
  grows st (final_state (format_loop tokensource i st w)).1 ∧
  ∃ calls, styled_more w calls (final_state (format_loop tokensource i st w)).2.
Proof.
  induction tokensource as [| token text rest IH | e]; intros i st w; simpl.
  - split; [apply grows_refl | exists []; apply styled_more_nil].
  - case_match.
    + apply IH.
    + pose proof (get_rtc_style_grows token (BasicStyle w) st) as Hg.
      destruct (get_rtc_style token (BasicStyle w) st) as [fmt st1 | e st1]; simpl in *.
      * destruct (IH (i + String.length text) st1
                    (SetStyleEx (mkRichTextRange i (i + String.length text)) fmt w))
          as [Hg' [calls Hc]].
        split; [by eapply grows_trans |].
        eexists. by apply styled_more_SetStyleEx.
      * split; [done | exists []; apply styled_more_nil].
  - split; [apply grows_refl | exists []; apply styled_more_nil].
Qed.

(** ** The loop on a well-formed stream *)

(** With a style class in place, resolving a style never raises. *)
Lemma get_rtc_style_returns token base st t :
  style (self st) = VStyle t →
  ∃ font st', get_rtc_style token base st = Return font st' ∧ grows st st'.
Proof.
  intros Hs.
  pose proof (get_rtc_style_grows token base st) as Hg.
  unfold get_rtc_style in *. rewrite Hs in *.
  destruct (_styles_cache (self st) !! token); eauto.
Qed.

(** The test of the loop, read through [restyled]. *)
Lemma format_loop_Yield token text rest i st w :
  format_loop (Yield token text rest) i st w =
    let rng := mkRichTextRange i (i + String.length text) in
    if restyled (default "" (_last_text_cache (self st) !! Id w)) (Value w) rng
    then match get_rtc_style token (BasicStyle w) st with
         | Raise e st => Raise e (st, w)
         | Return fmt st => format_loop rest (End rng) st (SetStyleEx rng fmt w)
         end
    else format_loop rest (End rng) st w.
Proof. simpl. unfold restyled. simpl. by case_match. Qed.

(** On a stream that does not fail, the loop returns, and the calls it
    made are, in order, those of the ranges that pass the test. *)
Lemma format_loop_tokens spans : ∀ i st w t,
  style (self st) = VStyle t →
  ∃ st' w' calls,
    format_loop (tokens spans) i st w = Return tt (st', w') ∧
    grows st st' ∧
    styled_more w calls w' ∧
    calls.*1 = filter (λ rng, restyled (default "" (_last_text_cache (self st) !! Id w))
                                (Value w) rng)
                 (ranges i spans).
Proof.
  induction spans as [| [token text] spans IH]; intros i st w t Hs.
  - exists st, w, []. split_and!; [done | apply grows_refl | apply styled_more_nil | done].
  - cbn [tokens ranges]. rewrite format_loop_Yield. cbn zeta.
    destruct (restyled _ _ _) eqn:Hr; simpl.
    + destruct (get_rtc_style_returns token (BasicStyle w) st t Hs)
        as (fmt & st1 & -> & Hg).
      assert (Hs1 : style (self st1) = VStyle t) by (destruct Hg as [-> _]; done).
      destruct (IH (i + String.length text) st1
                  (SetStyleEx (mkRichTextRange i (i + String.length text)) fmt w) t Hs1)
        as (st' & w' & calls & -> & Hg' & Hc & Hf).
      exists st', w', ((mkRichTextRange i (i + String.length text), fmt) :: calls).
      split_and!; [done | by eapply grows_trans | by apply styled_more_SetStyleEx |].
      rewrite filter_cons_True by (by rewrite Hr).
      rewrite fmap_cons, Hf. cbn [fst SetStyleEx Id Value].
      destruct Hg as (_ & -> & _). done.
    + destruct (IH (i + String.length text) st w t Hs)
        as (st' & w' & calls & -> & Hg' & Hc & Hf).
      exists st', w', calls. split_and!; [done | done | done |].
      rewrite filter_cons_False by (rewrite Hr; by intros []). done.
Qed.

(** [format] on a stream that does not fail: it returns; the control has
    received the calls for the ranges that pass the test and is otherwise
    back in its state, and the text cache now holds the control's text. *)
Lemma format_tokens spans st w t :
  style (self st) = VStyle t →
  ∃ st' w' calls,
    format (tokens spans) st w = Return tt (st', w') ∧
    formatted t w calls w' ∧
    calls.*1 = filter (λ rng, restyled (default "" (_last_text_cache (self st) !! Id w))
                                (Value w) rng)
                 (ranges 0 spans) ∧
    style (self st') = VStyle t ∧
    _last_text_cache (self st') = <[Id w := Value w]> (_last_text_cache (self st)) ∧
    _styles_cache (self st) ⊆ _styles_cache (self st') ∧
    lookups st `prefix_of` lookups st'.
Proof.
  intros Hs. unfold format. rewrite Hs.
  destruct (format_loop_tokens spans 0 st
              (SetBackgroundColour (background_color t) (Freeze (BeginSuppressUndo w))) t Hs)
    as (st' & w' & calls & -> & (Hst & Htc & Hsc & Hl) & Hw & Hf).
  exists (mkState (mkFormatter (style (self st')) (_styles_cache (self st'))
                    (<[Id w' := Value w']> (_last_text_cache (self st'))))
            (lookups st')),
    (Refresh (Update (Thaw (EndSuppressUndo w')))), calls.
  unfold styled_more in Hw. subst w'. cbn in *.
  split_and!; try done; congruence.
Qed.

(** ** Ranges and the test *)






(** Against its own text, a span passes the test exactly when it does not
    end before the text does. *)
Lemma restyled_same value rng :
  restyled value value rng = bool_decide (String.length value ≤ End rng).
Proof.
  unfold restyled. rewrite (bool_decide_eq_true_2 (slice _ _ _ = _)) by done.
  rewrite andb_true_r.
  destruct (decide (String.length value ≤ End rng)).
  - rewrite bool_decide_eq_false_2 by lia. by rewrite bool_decide_eq_true_2.
  - rewrite bool_decide_eq_true_2 by lia. by rewrite bool_decide_eq_false_2.
Qed.

(** Where the loop skips a span, the specification's test holds too. *)
Lemma skipped_spec_skips last_styled_text value rng :
  restyled last_styled_text value rng = false →
  spec_skips last_styled_text value rng.
Proof.
  unfold restyled, spec_skips. intros H.
  apply negb_false_iff, andb_true_iff in H as [H1 H2].
  apply bool_decide_eq_true in H1, H2. split; [lia | done].
Qed.

(** The two tests part on one case only: the cached text ends exactly
    where the span ends. *)
Lemma spec_skips_restyled last_styled_text value rng :
  spec_skips last_styled_text value rng →
  restyled last_styled_text value rng = true →
  String.length last_styled_text = End rng.
Proof.
  unfold restyled, spec_skips. intros [Hlen Heq] H.
  apply negb_true_iff, andb_false_iff in H as [H | H];
    apply bool_decide_eq_false in H; [lia | done].
Qed.


(** ** format *)


(** What does hold of a repeated call.  When [format] is called twice in a
    row on the same control with its text unchanged and the same stream,
    both calls return, and the second makes no [SetStyleEx] call for a span
    that ends before the text does, while it makes one for every span that
    ends beyond the text. *)
Lemma format_second_call_skips_inner_spans spans st w t :
  style (self st) = VStyle t →
  ∃ st1 w1 st2 w2 calls,
    format (tokens spans) st w = Return tt (st1, w1) ∧
    format (tokens spans) st1 w1 = Return tt (st2, w2) ∧
    Styled w2 = Styled w1 ++ calls ∧
    (∀ rng, rng ∈ calls.*1 → String.length (Value w) ≤ End rng) ∧
    (∀ rng, rng ∈ ranges 0 spans → String.length (Value w) < End rng → rng ∈ calls.*1).
Proof.
  intros Hs.
  destruct (format_tokens spans st w t Hs)
    as (st1 & w1 & calls1 & Hf1 & Hw1 & _ & Hs1 & Htc1 & _).
  destruct (format_tokens spans st1 w1 t Hs1)
    as (st2 & w2 & calls & Hf2 & Hw2 & Hc & _).
  assert (Hid : Id w1 = Id w) by (by rewrite Hw1).
  assert (Hv : Value w1 = Value w) by (by rewrite Hw1).
  rewrite Htc1, Hid, Hv, lookup_insert_eq in Hc. cbn [default from_option] in Hc.
  exists st1, w1, st2, w2, calls.
  split_and!; [done | done | by rewrite Hw2 | |].
  - intros rng Hin. rewrite Hc in Hin.
    apply list_elem_of_filter in Hin as [Hin _].
    rewrite restyled_same in Hin. by apply bool_decide_unpack in Hin.
  - intros rng Hin Hlt. rewrite Hc. apply list_elem_of_filter. split; [| done].
    rewrite restyled_same. apply bool_decide_pack. lia.
Qed.




(** ** set_style and get_rtc_style *)

(** [set_style] in one equation: it raises on a value that stands for no
    style, and otherwise stores the style, with empty caches if it differs
    from the current one. *)
Lemma set_style_resolve v f :
  set_style v f =
    match resolve v with
    | Some t =>
        Return tt (if bool_decide (VStyle t ≠ style f)
                   then mkFormatter (VStyle t) ∅ ∅
                   else mkFormatter (VStyle t) (_styles_cache f) (_last_text_cache f))
    | None => Raise (AssertionError (set_style_message v)) f
    end.
Proof.
  unfold set_style, in_all_styles, get_style_by_name.
  destruct v as [name | t | repr cls]; cbn [resolve]; [| by case_bool_decide | done].
  destruct (registry name) as [t |] eqn:Hreg.
  - rewrite bool_decide_eq_true_2 by (by eexists). by case_bool_decide.
  - rewrite bool_decide_eq_false_2; [done | by intros [? ?]].
Qed.

Lemma unresolvable_resolve v : unresolvable v ↔ resolve v = None.
Proof. destruct v; simpl; [done | | done]. split; [done | discriminate]. Qed.

(** C5. The two caches are emptied together, by [set_style] and by nothing
    else.  Given a value that stands for a style class other than the
    current style, [set_style] returns with that class stored and both
    caches empty; given one that stands for the current style, it returns
    with both caches as they were; given any other value it raises and
    leaves the formatter as it was.  [format] (however it ends),
    [get_rtc_style] and [get_style] never remove an entry: every style
    cached stays cached with its value, every control with a cached text
    keeps one. *)
Theorem caches_cleared_only_by_style_change :
  (∀ v f,
     match resolve v with
     | Some t =>
         ∃ f', set_style v f = Return tt f' ∧ style f' = VStyle t ∧
               ((VStyle t ≠ style f ∧
                 _styles_cache f' = ∅ ∧ _last_text_cache f' = ∅) ∨
                (VStyle t = style f ∧
                 _styles_cache f' = _styles_cache f ∧
                 _last_text_cache f' = _last_text_cache f))
     | None => ∃ e, set_style v f = Raise e f
     end) ∧
  (∀ tokensource st w,
     let st' := (final_state (format tokensource st w)).1 in
     _styles_cache (self st) ⊆ _styles_cache (self st') ∧
     ∀ k, is_Some (_last_text_cache (self st) !! k) →
          is_Some (_last_text_cache (self st') !! k)) ∧
  (∀ token base st,
     let st' := final_state (get_rtc_style token base st) in
     _styles_cache (self st) ⊆ _styles_cache (self st') ∧
     _last_text_cache (self st') = _last_text_cache (self st)) ∧
  (∀ f, final_state (get_style f) = f).
Proof.
  split_and!.
  - intros v f. rewrite set_style_resolve.
    destruct (resolve v) as [t |]; [| by eexists].
    eexists. split; [done |].
    case_bool_decide as Hne; cbn; (split; [done |]); [by left | by right].
  - intros tokensource st w. cbn zeta. unfold format.
    destruct (style (self st)) as [name | t | repr cls]; [done | | done].
    destruct (format_loop_frame tokensource 0 st
                (SetBackgroundColour (background_color t) (Freeze (BeginSuppressUndo w))))
      as [(_ & Htc & Hsc & _) _].
    destruct (format_loop _ _ _ _) as [[] [st' w'] | e [st' w']]; cbn in *.
    + split; [done |]. intros k Hk. rewrite Htc.
      destruct (decide (Id w' = k)) as [-> | Hne].
      * rewrite lookup_insert_eq. by eexists.
      * by rewrite lookup_insert_ne.
    + split; [done |]. intros k Hk. by rewrite Htc.
  - intros token base st. cbn zeta.
    destruct (get_rtc_style_grows token base st) as (_ & Htc & Hsc & _). done.
  - done.
Qed.





(** What [set_style] stores is a style class. *)
Lemma set_style_returns v f f' :
  set_style v f = Return tt f' → ∃ t, resolve v = Some t ∧ style f' = VStyle t.
Proof.
  rewrite set_style_resolve. destruct (resolve v) as [t |]; [| done].
  intros [= <-]. exists t. by case_bool_decide.
Qed.

(** A constructed formatter holds the style class its argument stands for,
    and empty caches. *)
Lemma __init___returns v f :
  __init__ v = Return tt (Some f) →
  ∃ t, resolve v = Some t ∧ f = mkFormatter (VStyle t) ∅ ∅.
Proof.
  unfold __init__. destruct (_lookup_style v) as [e | base_style]; [done |].
  rewrite set_style_resolve. destruct (resolve v) as [t |]; [| done].
  intros [= <-]. exists t. split; [done |]. by case_bool_decide.
Qed.

(** C7. Given a name the registry does not know, or an object that is
    neither a name nor a style, [set_style] raises a configuration error
    and leaves the formatter, its style and both caches, as it was; and
    construction raises a configuration error. *)
Theorem set_style_rejects_unresolvable v :
  unresolvable v →
  (∀ f, ∃ e, set_style v f = Raise e f ∧ ConfigurationError e) ∧
  (∃ e s, __init__ v = Raise e s ∧ ConfigurationError e).
Proof.
  intros Hu. split.
  - intros f. rewrite set_style_resolve.
    apply unresolvable_resolve in Hu. rewrite Hu. by eexists.
  - unfold __init__, _lookup_style, get_style_by_name.
    destruct v as [name | t | repr cls]; cbn in Hu; [| done |].
    + rewrite Hu. by do 2 eexists.
    + rewrite set_style_resolve. cbn. by do 2 eexists.
Qed.


(** ** Strings: lengths and slices of concatenations *)






(** ** The loop, call by call *)


Lemma restyled_from_cons_true last value i token text spans :
  restyled last value (mkRichTextRange i (i + String.length text)) = true →
  restyled_from last value i ((token, text) :: spans)
    = (mkRichTextRange i (i + String.length text), token)
        :: restyled_from last value (i + String.length text) spans.
Proof.
  intros Hr. unfold restyled_from. cbn [spans_with_ranges].
  rewrite filter_cons_True; [done | cbn; by rewrite Hr].
Qed.

Lemma restyled_from_cons_false last value i token text spans :
  restyled last value (mkRichTextRange i (i + String.length text)) = false →
  restyled_from last value i ((token, text) :: spans)
    = restyled_from last value (i + String.length text) spans.
Proof.
  intros Hr. unfold restyled_from. cbn [spans_with_ranges].
  rewrite filter_cons_False; [done | cbn; rewrite Hr; by intros []].
Qed.



Lemma spans_with_ranges_fst spans : ∀ i, (spans_with_ranges i spans).*1 = ranges i spans.
Proof.
  induction spans as [| [token text] spans IH]; intros i; cbn; [done | by rewrite IH].
Qed.

(** The ranges of the restyled spans are the ranges that pass the test. *)
Lemma restyled_from_fst last value spans : ∀ i,
  (restyled_from last value i spans).*1
    = filter (λ rng, restyled last value rng) (ranges i spans).
Proof.
  induction spans as [| [token text] spans IH]; intros i; [done |].
  cbn [ranges].
  destruct (restyled last value (mkRichTextRange i (i + String.length text))) eqn:Hr.
  - rewrite (restyled_from_cons_true _ _ _ _ _ _ Hr), fmap_cons, IH.
    rewrite filter_cons_True by (by rewrite Hr). done.
  - rewrite (restyled_from_cons_false _ _ _ _ _ _ Hr), IH.
    rewrite filter_cons_False by (rewrite Hr; by intros []). done.
Qed.



(** ** More about format *)

(** X1. The text cache is written by a [format] that returns, and only for
    the control it formatted, whose entry then holds the control's text; a
    [format] that raises leaves the text cache as it was. *)
Theorem format_text_cache tokensource st w :
  match format tokensource st w with
  | Return _ (st', _) =>
      _last_text_cache (self st') = <[Id w := Value w]> (_last_text_cache (self st))
  | Raise _ (st', _) =>
      _last_text_cache (self st') = _last_text_cache (self st)
  end.
Proof.
  unfold format. destruct (style (self st)) as [name | t | repr cls]; [done | | done].
  destruct (format_loop_frame tokensource 0 st
              (SetBackgroundColour (background_color t) (Freeze (BeginSuppressUndo w))))
    as [(_ & Htc & _ & _) [calls Hw]].
  destruct (format_loop _ _ _ _) as [[] [st' w'] | e [st' w']]; cbn in *; [| done].
  unfold styled_more in Hw. subst w'. cbn. by rewrite Htc.
Qed.

(** X2. What [format] does to the control.  When it returns, the control
    has its identity, text and basic style, the background colour of the
    style class, one more [Update] and one more [Refresh], and the
    [SetStyleEx] calls added after those it had.  When it raises, no
    [Update] or [Refresh] was made, and the [SetStyleEx] calls made before
    the exception stay. *)
Theorem format_control_effects tokensource st w :
  match format tokensource st w with
  | Return _ (_, w') =>
      ∃ t calls, style (self st) = VStyle t ∧ formatted t w calls w'
  | Raise _ (_, w') =>
      Id w' = Id w ∧ Value w' = Value w ∧ BasicStyle w' = BasicStyle w ∧
      Updates w' = Updates w ∧ Refreshes w' = Refreshes w ∧
      ∃ calls, Styled w' = Styled w ++ calls
  end.
Proof.
  unfold format. destruct (style (self st)) as [name | t | repr cls] eqn:Hs.
  - cbn. split_and!; try done. exists []. by rewrite app_nil_r.
  - destruct (format_loop_frame tokensource 0 st
                (SetBackgroundColour (background_color t) (Freeze (BeginSuppressUndo w))))
      as [_ [calls Hw]].
    destruct (format_loop _ _ _ _) as [[] [st' w'] | e [st' w']];
      cbn in Hw; unfold styled_more in Hw; subst w'; cbn.
    + by exists t, calls.
    + split_and!; try done. by exists calls.
  - cbn. split_and!; try done. exists []. by rewrite app_nil_r.
Qed.













(** ** More about set_style and the constructor *)

(** X12. Setting the style by a registered name is setting it by the class
    the name stands for, and [get_style] then returns that class. *)
Theorem set_style_by_name name t f :
  registry name = Some t →
  set_style (VStr name) f = set_style (VStyle t) f ∧
  ∃ f', set_style (VStr name) f = Return tt f' ∧ get_style f' = Return (VStyle t) f'.
Proof.
  intros Hreg. rewrite !set_style_resolve. cbn [resolve]. rewrite Hreg.
  split; [done |]. eexists. split; [done |].
  unfold get_style. by case_bool_decide.
Qed.

(** X13. [set_style] is idempotent: repeating a call that returned returns
    again and changes nothing, the caches included. *)
Theorem set_style_idempotent v f f' :
  set_style v f = Return tt f' → set_style v f' = Return tt f'.
Proof.
  rewrite !set_style_resolve. destruct (resolve v) as [t |]; [| done].
  intros [= <-]. f_equal.
  destruct (bool_decide (VStyle t ≠ style f)); cbn;
    rewrite bool_decide_eq_false_2 by (intros H; by apply H); done.
Qed.

(** X14. The constructor returns exactly for the values that stand for a
    style class, with that class as the style and both caches empty; for
    any other value it raises. *)
Theorem __init___outcome v :
  match resolve v with
  | Some t => __init__ v = Return tt (Some (mkFormatter (VStyle t) ∅ ∅))
  | None => raises (__init__ v)
  end.
Proof.
  unfold __init__, _lookup_style, get_style_by_name.
  destruct v as [name | t | repr cls]; cbn [resolve].
  - destruct (registry name) as [t |] eqn:Hreg; [| done].
    rewrite set_style_resolve. cbn [resolve]. rewrite Hreg.
    by rewrite bool_decide_eq_false_2 by (intros H; by apply H).
  - rewrite set_style_resolve. cbn [resolve].
    by rewrite bool_decide_eq_false_2 by (intros H; by apply H).
  - rewrite set_style_resolve. done.
Qed.

(** [format] never changes the style, however it ends. *)
Lemma format_keeps_style tokensource st w :
  style (self (final_state (format tokensource st w)).1) = style (self st).
Proof.
  unfold format. destruct (style (self st)) as [name | t | repr cls] eqn:Hs; [done | | done].
  destruct (format_loop_frame tokensource 0 st
              (SetBackgroundColour (background_color t) (Freeze (BeginSuppressUndo w))))
    as [(Hst & _) _].
  destruct (format_loop _ _ _ _) as [[] [st' w'] | e [st' w']]; cbn in *; congruence.
Qed.

Lemma bind_keeps_style lexer st ctrl :
  style (self (final_state (bind lexer st ctrl)).1) = style (self st).
Proof.
  unfold bind, _on_text.
  destruct lexer as [name | l]; [destruct (get_lexer_by_name name) as [e | l]; [done |] | done].
  cbn [pygments_bound closure_lexer].
  match goal with
  | |- context [format ?ts ?s ?w] =>
      pose proof (format_keeps_style ts s w) as Hk;
      destruct (format ts s w) as [[] [st' w'] | e' [st' w']]; exact Hk
  end.
Qed.

(** Every method leaves a style class in place where there was one. *)
Lemma after_call_style_class st c :
  (∃ t, style (self st) = VStyle t) → ∃ t, style (self (after_call st c)) = VStyle t.
Proof.
  intros [t Hs]. destruct c as [v | token base | tokensource outfile | lexer ctrl]; cbn.
  - rewrite set_style_resolve. destruct (resolve v) as [t' |]; cbn; [| by exists t].
    exists t'. by case_bool_decide.
  - destruct (get_rtc_style_grows token base st) as (-> & _). by exists t.
  - rewrite format_keeps_style. by exists t.
  - rewrite bind_keeps_style. by exists t.
Qed.

(** X15. A formatter the constructor returned holds a style class for
    good: after any sequence of [set_style], [get_rtc_style], [format] and
    [bind] calls, whether they returned or raised, its style is a style
    class. *)
Theorem constructed_formatter_keeps_style_class v f record calls :
  __init__ v = Return tt (Some f) →
  ∃ t, style (self (after_calls (mkState f record) calls)) = VStyle t.
Proof.
  intros Hinit.
  apply __init___returns in Hinit as (t & _ & ->).
  assert (H0 : ∃ t0, style (self (mkState (mkFormatter (VStyle t) ∅ ∅) record)) = VStyle t0)
    by (by exists t).
  revert H0. generalize (mkState (mkFormatter (VStyle t) ∅ ∅) record).
  unfold after_calls. induction calls as [| c calls IH]; intros st Hst; [done |].
  cbn [fold_left]. apply IH. by apply after_call_style_class.
Qed.

(** ** The attribute get_rtc_style builds *)

(** X16. The attribute built for a style specification over a base.  The
    font family is roman, swiss or teletype for the first of the hints
    [roman], [sans], [mono] that is set, and the base's when none is; style,
    weight and underlining are always set from the flags of the
    specification, never taken from the base; the colour is the
    specification's behind a [#], and the base's when it has none. *)
Theorem make_font_attributes spec base :
  AttrFontFamily (make_font spec base)
    = (if roman spec then Some FONTFAMILY_ROMAN
       else if sans spec then Some FONTFAMILY_SWISS
       else if mono spec then Some FONTFAMILY_TELETYPE
       else AttrFontFamily base) ∧
  AttrFontStyle (make_font spec base)
    = Some (if italic spec then FONTSTYLE_ITALIC else FONTSTYLE_NORMAL) ∧
  AttrFontWeight (make_font spec base)
    = Some (if bold spec then FONTWEIGHT_BOLD else FONTWEIGHT_NORMAL) ∧
  AttrFontUnderlined (make_font spec base)
    = Some (if underline spec then TEXT_ATTR_UNDERLINE_SOLID else TEXT_ATTR_UNDERLINE_NONE) ∧
  AttrTextColour (make_font spec base)
    = match color spec with
      | Some c => Some ("#" +:+ c)
      | None => AttrTextColour base
      end.
Proof.
  destruct spec as [c b i u r s m], base as [bf bs bw bu bc].
  unfold make_font. cbn [color bold italic underline roman sans mono].
  destruct c as [c |], r, s, m, bf, bs, bw, bu, bc; cbn; done.
Qed.

(** ** bind *)

(** X17. The lexer argument of [bind].  For a name the lexer registry does
    not know, [bind] raises [ClassNotFound] before anything is bound, styled
    or cached.  For a lexer object [bind] binds its handler and then raises
    [NameError]: the handler reads the variable [pygments] of [bind], which
    only the branch for a name binds; the control is not formatted and the
    formatter is as it was. *)
Theorem bind_lexer_argument st ctrl :
  (∀ name, lexer_registry name = None →
           bind (LexerName name) st ctrl = Raise (ClassNotFound name) (st, ctrl)) ∧
  (∀ lexer, bind (LexerObject lexer) st ctrl
            = Raise (NameError "pygments")
                (st, mkBoundCtrl (Ctrl ctrl) (EVT_TEXT ctrl ++ [mkOnText false lexer]))).
Proof.
  split.
  - intros name Hname. unfold bind, get_lexer_by_name. by rewrite Hname.
  - intros lexer. reflexivity.
Qed.



End WxRichTextCtrlFormatter.

(** ** MissingPackage *)

Lemma append_assoc (a b c : string) : (a +:+ b) +:+ c = a +:+ (b +:+ c).
Proof.
  induction a as [| x a IH]; [done |].
  change (String x ((a +:+ b) +:+ c) = String x (a +:+ b +:+ c)). by f_equal.
Qed.

Lemma getattrs_self (mp : Util.MissingPackage) (attrs : list string) :
  Util.getattrs mp attrs = Util.Value mp.
Proof. induction attrs as [| attr attrs IH]; simpl; done. Qed.

(** C9. On the sentinel for a missing package, every attribute chain
    followed by a call raises an [ImportError], a configuration error, whose
    message names the package; attribute access alone returns the sentinel
    and raises nothing, and the import guard yields the sentinel for wxPython
    instead of raising. *)
Theorem missing_package_raises_on_call {Args Module : Type}
    (mp : Util.MissingPackage) (attrs : list string) (args : Args) :
  Util.getattrs mp attrs = Util.Value mp ∧
  (∃ msg, Util.method_call mp attrs args = Util.Raised (ImportError msg) ∧
          ConfigurationError (ImportError msg) ∧
          Util.names msg (Util.pkg mp)) ∧
  Util.import_wx (@None Module) = inr (Util.mkMissingPackage "wxPython" "pygments-gui.wx").
Proof.
  split_and!; [apply getattrs_self | | done].
  unfold Util.method_call. rewrite getattrs_self. unfold Util.__call__.
  eexists. split_and!; [done | done |].
  exists (Util.context mp +:+ " requires "), " to be installed.".
  by rewrite append_assoc.
Qed.

(** ** The code run on concrete inputs *)

Local Abbreviation demo_format := (format Demo.background_color Demo.style_for_token).
Local Abbreviation demo_get_rtc_style := (get_rtc_style Demo.style_for_token).
Local Abbreviation demo_set_style := (set_style Demo.registry).

(** C2, on the specification's own scenario.  After a first [format] of
    ["if x"] the cache holds ["if x"]; in the second call the last span,
    over the range from 3 to 4, meets the specification's test (the cached
    text is as long as the end of the range, and the two texts agree on it),
    and yet [format] styles it again: it is the one call of the second
    invocation. *)
Theorem format_restyles_span_at_end_of_cached_text :
  ∃ st1 w1 st2 w2 fmt,
    demo_format (tokens Demo.if_x) Demo.fresh (Demo.ctrl "if x") = Return tt (st1, w1) ∧
    _last_text_cache (self st1) !! Id w1 = Some "if x" ∧
    Value w1 = "if x" ∧
    spec_skips "if x" (Value w1) (mkRichTextRange 3 4) ∧
    demo_format (tokens Demo.if_x) st1 w1 = Return tt (st2, w2) ∧
    Styled w2 = Styled w1 ++ [(mkRichTextRange 3 4, fmt)].
Proof.
  do 5 eexists. split_and!.
  - vm_compute. reflexivity.
  - vm_compute. reflexivity.
  - reflexivity.
  - split; [vm_compute; lia | reflexivity].
  - vm_compute. reflexivity.
  - vm_compute. reflexivity.
Qed.

(** [Demo.fresh] is the formatter the constructor builds for ["default"]. *)
Example fresh_is_constructed :
  __init__ Demo.registry (VStr "default") = Return tt (Some (self Demo.fresh)).
Proof. reflexivity. Qed.

(** The last step of the specification's scenario: after ["if x"] was
    formatted, the text becomes ["if y"]; the one call of the next [format]
    is over the range from 3 to 4. *)
Example scenario_changed_text :
  ∃ st1 w1 st2 w2 fmt,
    demo_format (tokens Demo.if_x) Demo.fresh (Demo.ctrl "if x") = Return tt (st1, w1) ∧
    demo_format (tokens [("Keyword", "if"); ("Text", " "); ("Name", "y")]) st1 (Demo.ctrl "if y")
      = Return tt (st2, w2) ∧
    Styled w2 = [(mkRichTextRange 3 4, fmt)].
Proof. do 5 eexists. split_and!; vm_compute; reflexivity. Qed.

(** C1, on the specification's own scenario.  The stream keeps the lexer's
    contract, its texts adding up to the control's text ["if x"]; [format]
    is called twice in a row, text and stream unchanged, and the second call
    does not leave the control without a [SetStyleEx] call: the span that
    ends where the text ends is styled again. *)
Theorem second_call_restyles_unchanged_text :
  texts Demo.if_x = Value (Demo.ctrl "if x") ∧
  ¬ second_call_applies_nothing Demo.background_color Demo.style_for_token
      Demo.if_x Demo.fresh (Demo.ctrl "if x").
Proof.
  split; [reflexivity |]. intros H.
  set (r1 := demo_format (tokens Demo.if_x) Demo.fresh (Demo.ctrl "if x")).
  set (st1 := (final_state r1).1). set (w1 := (final_state r1).2).
  set (r2 := demo_format (tokens Demo.if_x) st1 w1).
  specialize (H st1 w1 (final_state r2).1 (final_state r2).2).
  assert (H1 : r1 = Return tt (st1, w1)) by (vm_compute; reflexivity).
  assert (H2 : r2 = Return tt ((final_state r2).1, (final_state r2).2))
    by (vm_compute; reflexivity).
  specialize (H H1 H2). vm_compute in H. discriminate H.
Qed.



(** ** The theorems at work *)




Lemma caches_cleared_only_by_style_change_witness :
  let st := (final_state (demo_format (tokens Demo.if_x) Demo.fresh (Demo.ctrl "if x"))).1 in
  is_Some (_last_text_cache (self st) !! 7%Z) ∧
  is_Some (_styles_cache (self st) !! "Keyword") ∧
  is_Some (_last_text_cache
             (self (final_state (demo_format (Fails (LexerError "eof")) st (Demo.ctrl "if y"))).1)
           !! 7%Z) ∧
  (∃ f', demo_set_style (VStr "vs") (self st) = Return tt f' ∧
         style f' = VStyle Demo.vs_style ∧
         _styles_cache f' = ∅ ∧ _last_text_cache f' = ∅) ∧
  (∃ f', demo_set_style (VStr "default") (self st) = Return tt f' ∧
         _styles_cache f' = _styles_cache (self st) ∧
         _last_text_cache f' = _last_text_cache (self st)).
Proof.
  cbn zeta.
  set (st := (final_state (demo_format (tokens Demo.if_x) Demo.fresh (Demo.ctrl "if x"))).1).
  assert (H : is_Some (_last_text_cache (self st) !! 7%Z))
    by (vm_compute; eexists; reflexivity).
  pose proof (caches_cleared_only_by_style_change Demo.registry Demo.background_color
                Demo.style_for_token) as (Hset & Hformat & _ & _).
  split; [exact H |]. split; [vm_compute; eexists; reflexivity |].
  split; [exact (proj2 (Hformat (Fails (LexerError "eof")) st (Demo.ctrl "if y")) _ H) |].
  split.
  - destruct (Hset (VStr "vs") (self st))
      as (f' & Hf' & Hstyle & [(_ & Hsc & Htc) | (Hsame & _)]).
    + exists f'. split; [exact Hf' |]. split; [exact Hstyle |]. split; [exact Hsc | exact Htc].
    + vm_compute in Hsame. discriminate Hsame.
  - destruct (Hset (VStr "default") (self st))
      as (f' & Hf' & _ & [(Hne & _) | (_ & Hsc & Htc)]).
    + vm_compute in Hne. exfalso. apply Hne. reflexivity.
    + exists f'. split; [exact Hf' |]. split; [exact Hsc | exact Htc].
Defined.


Lemma set_style_rejects_unresolvable_witness :
  unresolvable Demo.registry (VStr "solarized") ∧
  (∀ f, ∃ e, demo_set_style (VStr "solarized") f = Raise e f ∧ ConfigurationError e) ∧
  (∃ e s, __init__ Demo.registry (VStr "solarized") = Raise e s ∧ ConfigurationError e).
Proof.
  split; [reflexivity |].
  apply (set_style_rejects_unresolvable Demo.registry (VStr "solarized")).
  reflexivity.
Defined.


(** ** The further theorems at work *)

Local Abbreviation demo_bind := (bind Demo.background_color Demo.style_for_token
                                   nat Demo.lexer_registry Demo.lex).










Lemma set_style_by_name_witness :
  Demo.registry "vs" = Some Demo.vs_style ∧
  demo_set_style (VStr "vs") (self Demo.seen_if_x)
    = demo_set_style (VStyle Demo.vs_style) (self Demo.seen_if_x) ∧
  ∃ f', demo_set_style (VStr "vs") (self Demo.seen_if_x) = Return tt f' ∧
        get_style f' = Return (VStyle Demo.vs_style) f'.
Proof.
  split; [reflexivity |].
  apply (set_style_by_name Demo.registry "vs" Demo.vs_style (self Demo.seen_if_x)).
  reflexivity.
Defined.

Lemma set_style_idempotent_witness :
  demo_set_style (VStr "vs") (self Demo.seen_if_x)
    = Return tt (mkFormatter (VStyle Demo.vs_style) ∅ ∅) ∧
  demo_set_style (VStr "vs") (mkFormatter (VStyle Demo.vs_style) ∅ ∅)
    = Return tt (mkFormatter (VStyle Demo.vs_style) ∅ ∅).
Proof.
  split; [reflexivity |].
  apply (set_style_idempotent Demo.registry (VStr "vs") (self Demo.seen_if_x)).
  reflexivity.
Defined.

Lemma constructed_formatter_keeps_style_class_witness :
  let calls :=
    [CallSetStyle nat (VStr "solarized");
     CallFormat nat (Fails (LexerError "eof")) (Demo.ctrl "if x");
     CallSetStyle nat (VStr "vs");
     CallBind nat (LexerObject nat 0) (mkBoundCtrl nat (Demo.ctrl "if x") []);
     CallBind nat (LexerName nat "broken") (mkBoundCtrl nat (Demo.ctrl "if x") [])] in
  __init__ Demo.registry (VStr "default") = Return tt (Some (self Demo.fresh)) ∧
  ∃ t, style (self (after_calls Demo.registry Demo.background_color Demo.style_for_token
                      nat Demo.lexer_registry Demo.lex Demo.fresh calls)) = VStyle t.
Proof.
  cbn zeta. split; [reflexivity |].
  apply (constructed_formatter_keeps_style_class Demo.registry Demo.background_color
           Demo.style_for_token nat Demo.lexer_registry Demo.lex
           (VStr "default") (self Demo.fresh) []).
  reflexivity.
Defined.

Lemma bind_lexer_argument_witness :
  Demo.lexer_registry "ruby" = None ∧
  demo_bind (LexerName nat "ruby") Demo.fresh (mkBoundCtrl nat (Demo.ctrl "if x") [])
    = Raise (ClassNotFound "ruby") (Demo.fresh, mkBoundCtrl nat (Demo.ctrl "if x") []) ∧
  demo_bind (LexerObject nat 0) Demo.fresh (mkBoundCtrl nat (Demo.ctrl "if x") [])
    = Raise (NameError "pygments")
        (Demo.fresh, mkBoundCtrl nat (Demo.ctrl "if x") ([] ++ [mkOnText nat false 0])).
Proof.
  split; [reflexivity |].
  destruct (bind_lexer_argument Demo.background_color Demo.style_for_token nat
              Demo.lexer_registry Demo.lex Demo.fresh
              (mkBoundCtrl nat (Demo.ctrl "if x") [])) as [Hname Hobject].
  split; [apply Hname; reflexivity | apply Hobject].
Defined.



